(** * AircraftPresets: the tick-driven preset loader

    A shallow embedding of [AircraftPresets::update]
    (src/fbw-common/src/wasm/extra-backend/AircraftPresets/AircraftPresets.cpp)
    and the properties of one tick and of short runs of ticks.

    Conventions of the embedding
    - C++ [double] values (times, script results) are exact rationals [Q];
      the only operation of the routine that can leave the finite values, the
      division that yields the fractional progress, has a result type of its
      own ([quotient]).
    - [std::size_t] is [N], its increment wraps at 2^64.
    - [int64_t] request and procedure ids are [Z]; they are only compared and
      copied.
    - The pointer [currentProcedure] is modelled by the procedure it points
      to (the repository's data is immutable); it is dereferenced only while
      [loadingIsActive] holds.
    - One call of [update] is a computation in a small state-and-output
      monad: it transforms the loader and produces the list of its
      outward effects in program order. *)

From Stdlib Require Import ZArith NArith QArith Qabs List String Bool Lia.
Import ListNotations.

Set Implicit Arguments.

Module AircraftPresets.

(** ** Data model *)

(** Modelled from the spec: the declaration of ProcedureStep (its header is
    not among the sources); fields as spec section 3 lists them and as
    [update] reads them. *)
Record ProcedureStep : Type := mkStep {
  description : string;
  id : Z;
  isConditional : bool;
  delayAfter : Q;
  expectedStateCheckCode : string;
  actionCode : string
}.

(** Modelled from the spec: a Procedure is the ordered sequence of its steps
    ([std::vector<const ProcedureStep*>] in the code). *)
Definition Procedure : Type := list ProcedureStep.

(** [currentProcedure->size()] *)
Definition size (p : Procedure) : N := N.of_nat (List.length p).

(** [std::string::empty()] *)
Definition empty (s : string) : bool :=
  match s with
  | EmptyString => true
  | String _ _ => false
  end.

(** Result of the [double] division [static_cast<double>(a) / b] of two
    unsigned integers: a finite rational, or a non-finite value (inf or NaN)
    when the divisor is zero. *)
Inductive quotient : Type :=
| Finite (q : Q)
| NonFinite.

Definition double_div (a b : N) : quotient :=
  if (b =? 0)%N then NonFinite
  else Finite (inject_Z (Z.of_N a) / inject_Z (Z.of_N b)).

(** [std::size_t] arithmetic. *)
Definition SIZE_MODULUS : N := 2 ^ 64.
Definition SIZE_MAX : N := SIZE_MODULUS - 1.
Definition size_t_incr (n : N) : N := ((n + 1) mod SIZE_MODULUS)%N.

(** ** Outward effects of a tick *)

Inductive LogLevel : Type := INFO | WARN | ERROR.

Inductive SimVar : Type := ProgressVar | ProgressIdVar.

Inductive Event : Type :=
| Log (lvl : LogLevel)                    (* LOG_INFO, LOG_WARN, LOG_ERROR *)
| Cout                                    (* a verbose line on std::cout *)
| UpdateFromSim (v : SimVar)              (* var->updateFromSim(...) *)
| WriteProgress (v : quotient)            (* progressAircraftPreset->setAndWriteToSim *)
| WriteProgressId (v : Z)                 (* progressAircraftPresetId->setAndWriteToSim *)
| ExecuteCalculatorCode (code : string).  (* execute_calculator_code *)

(** The script strings evaluated, in order. *)
Fixpoint executed (tr : list Event) : list string :=
  match tr with
  | [] => []
  | ExecuteCalculatorCode c :: tr' => c :: executed tr'
  | _ :: tr' => executed tr'
  end.

(** The values written to the two progress outputs, in order. *)
Fixpoint progress_writes (tr : list Event) : list quotient :=
  match tr with
  | [] => []
  | WriteProgress v :: tr' => v :: progress_writes tr'
  | _ :: tr' => progress_writes tr'
  end.

Fixpoint progress_id_writes (tr : list Event) : list Z :=
  match tr with
  | [] => []
  | WriteProgressId v :: tr' => v :: progress_id_writes tr'
  | _ :: tr' => progress_id_writes tr'
  end.

Section Loader.

(** The host simulation as seen by the scripting service: evaluating a script
    changes the host and yields the floating-point result [fvalue]. *)
Variable Host : Type.
Variable calculator : string -> Host -> Host * Q.

(** [helper::Math::almostEqual] (math_utils.hpp, not among the sources). *)
Variable almostEqual : Q -> Q -> bool.

(** [PresetProcedures::getProcedure]: the repository lookup. *)
Variable getProcedure : Z -> option Procedure.

(** The members of [AircraftPresets], the values of the variables the
    DataManager caches for it, and the host. *)
Record State : Type := mkState {
  isInitialized : bool;               (* _isInitialized *)
  aircraftIsReady : bool;             (* msfsHandler.getAircraftIsReadyVar() *)
  aircraftPresetVerbose : bool;       (* AIRCRAFT_PRESET_VERBOSE *)
  loadAircraftPresetRequest : Z;      (* AIRCRAFT_PRESET_LOAD *)
  simOnGround : bool;                 (* SIM ON GROUND *)
  progressAircraftPreset : quotient;  (* AIRCRAFT_PRESET_LOAD_PROGRESS *)
  progressAircraftPresetId : Z;       (* AIRCRAFT_PRESET_LOAD_CURRENT_ID *)
  currentProcedureID : Z;
  currentProcedure : Procedure;
  loadingIsActive : bool;
  currentLoadingTime : Q;
  currentDelay : Q;
  currentStep : N;
  host : Host
}.

Definition set_loadAircraftPresetRequest (v : Z) (s : State) : State :=
  mkState (isInitialized s) (aircraftIsReady s) (aircraftPresetVerbose s) v
    (simOnGround s) (progressAircraftPreset s) (progressAircraftPresetId s)
    (currentProcedureID s) (currentProcedure s) (loadingIsActive s)
    (currentLoadingTime s) (currentDelay s) (currentStep s) (host s).

Definition set_progressAircraftPreset (v : quotient) (s : State) : State :=
  mkState (isInitialized s) (aircraftIsReady s) (aircraftPresetVerbose s)
    (loadAircraftPresetRequest s) (simOnGround s) v (progressAircraftPresetId s)
    (currentProcedureID s) (currentProcedure s) (loadingIsActive s)
    (currentLoadingTime s) (currentDelay s) (currentStep s) (host s).

Definition set_progressAircraftPresetId (v : Z) (s : State) : State :=
  mkState (isInitialized s) (aircraftIsReady s) (aircraftPresetVerbose s)
    (loadAircraftPresetRequest s) (simOnGround s) (progressAircraftPreset s) v
    (currentProcedureID s) (currentProcedure s) (loadingIsActive s)
    (currentLoadingTime s) (currentDelay s) (currentStep s) (host s).

Definition set_currentProcedureID (v : Z) (s : State) : State :=
  mkState (isInitialized s) (aircraftIsReady s) (aircraftPresetVerbose s)
    (loadAircraftPresetRequest s) (simOnGround s) (progressAircraftPreset s)
    (progressAircraftPresetId s) v (currentProcedure s) (loadingIsActive s)
    (currentLoadingTime s) (currentDelay s) (currentStep s) (host s).

Definition set_currentProcedure (v : Procedure) (s : State) : State :=
  mkState (isInitialized s) (aircraftIsReady s) (aircraftPresetVerbose s)
    (loadAircraftPresetRequest s) (simOnGround s) (progressAircraftPreset s)
    (progressAircraftPresetId s) (currentProcedureID s) v (loadingIsActive s)
    (currentLoadingTime s) (currentDelay s) (currentStep s) (host s).

Definition set_loadingIsActive (v : bool) (s : State) : State :=
  mkState (isInitialized s) (aircraftIsReady s) (aircraftPresetVerbose s)
    (loadAircraftPresetRequest s) (simOnGround s) (progressAircraftPreset s)
    (progressAircraftPresetId s) (currentProcedureID s) (currentProcedure s) v
    (currentLoadingTime s) (currentDelay s) (currentStep s) (host s).

Definition set_currentLoadingTime (v : Q) (s : State) : State :=
  mkState (isInitialized s) (aircraftIsReady s) (aircraftPresetVerbose s)
    (loadAircraftPresetRequest s) (simOnGround s) (progressAircraftPreset s)
    (progressAircraftPresetId s) (currentProcedureID s) (currentProcedure s)
    (loadingIsActive s) v (currentDelay s) (currentStep s) (host s).

Definition set_currentDelay (v : Q) (s : State) : State :=
  mkState (isInitialized s) (aircraftIsReady s) (aircraftPresetVerbose s)
    (loadAircraftPresetRequest s) (simOnGround s) (progressAircraftPreset s)
    (progressAircraftPresetId s) (currentProcedureID s) (currentProcedure s)
    (loadingIsActive s) (currentLoadingTime s) v (currentStep s) (host s).

Definition set_currentStep (v : N) (s : State) : State :=
  mkState (isInitialized s) (aircraftIsReady s) (aircraftPresetVerbose s)
    (loadAircraftPresetRequest s) (simOnGround s) (progressAircraftPreset s)
    (progressAircraftPresetId s) (currentProcedureID s) (currentProcedure s)
    (loadingIsActive s) (currentLoadingTime s) (currentDelay s) v (host s).

Definition set_host (v : Host) (s : State) : State :=
  mkState (isInitialized s) (aircraftIsReady s) (aircraftPresetVerbose s)
    (loadAircraftPresetRequest s) (simOnGround s) (progressAircraftPreset s)
    (progressAircraftPresetId s) (currentProcedureID s) (currentProcedure s)
    (loadingIsActive s) (currentLoadingTime s) (currentDelay s) (currentStep s) v.

(** ** The monad of one call *)

Definition M (A : Type) : Type := State -> A * State * list Event.

Definition ret {A : Type} (a : A) : M A := fun s => (a, s, []).

Definition bind {A B : Type} (m : M A) (k : A -> M B) : M B :=
  fun s =>
    let '(a, s1, t1) := m s in
    let '(b, s2, t2) := k a s1 in
    (b, s2, t1 ++ t2).

Notation "x <- m ;; k" := (bind m (fun x => k))
  (at level 61, m at next level, right associativity).
Notation "m ;; k" := (bind m (fun _ => k))
  (at level 61, right associativity).

Definition get : M State := fun s => (s, s, []).
Definition modify (f : State -> State) : M unit := fun s => (tt, f s, []).
Definition emit (e : Event) : M unit := fun s => (tt, s, [e]).
Definition when (b : bool) (m : M unit) : M unit := if b then m else ret tt.

(** [execute_calculator_code(code, &fvalue, &ivalue, &svalue)]; only [fvalue]
    is ever read. *)
Definition execute_calculator_code (code : string) : M Q :=
  fun s =>
    let r := calculator code (host s) in
    (snd r, set_host (fst r) s, [ExecuteCalculatorCode code]).

(** [progressAircraftPreset->setAndWriteToSim(v)] *)
Definition progress_setAndWriteToSim (v : quotient) : M unit :=
  modify (set_progressAircraftPreset v) ;; emit (WriteProgress v).

(** [progressAircraftPresetId->setAndWriteToSim(v)] *)
Definition progressId_setAndWriteToSim (v : Z) : M unit :=
  modify (set_progressAircraftPresetId v) ;; emit (WriteProgressId v).

(** ** AircraftPresets::update *)

(** Lines 176-184: report progress, run the action script, advance. *)
Definition execute_action (step : ProcedureStep) : M bool :=
  s <- get ;;
  progress_setAndWriteToSim (double_div (currentStep s) (size (currentProcedure s))) ;;
  progressId_setAndWriteToSim (id step) ;;
  emit (Log INFO) ;;
  _ <- execute_calculator_code (actionCode step) ;;
  modify (set_currentStep (size_t_incr (currentStep s))) ;;
  ret true.

(** Lines 129-184: the step in focus fires. *)
Definition fire_step (step : ProcedureStep) : M bool :=
  s <- get ;;
  modify (set_currentDelay (currentLoadingTime s + delayAfter step)) ;;
  if isConditional step then
    progress_setAndWriteToSim (double_div (currentStep s) (size (currentProcedure s))) ;;
    progressId_setAndWriteToSim (id step) ;;
    fvalue <- execute_calculator_code (actionCode step) ;;
    emit (Log INFO) ;;
    when (negb (almostEqual 0 fvalue))
      (modify (set_currentDelay 0) ;;
       modify (set_currentStep (size_t_incr (currentStep s)))) ;;
    ret true
  else if negb (empty (expectedStateCheckCode step)) then
    when (aircraftPresetVerbose s) (emit Cout) ;;
    fvalue <- execute_calculator_code (expectedStateCheckCode step) ;;
    if negb (almostEqual 0 fvalue) then
      when (aircraftPresetVerbose s) (emit Cout) ;;
      modify (set_currentDelay 0) ;;
      modify (set_currentStep (size_t_incr (currentStep s))) ;;
      ret true
    else execute_action step
  else execute_action step.

(** Lines 106-184: a run is active, the request is positive, the aircraft is
    on the ground. *)
Definition continue_run (dt : Q) : M bool :=
  s <- get ;;
  modify (set_loadAircraftPresetRequest (currentProcedureID s)) ;;
  if (size (currentProcedure s) <=? currentStep s)%N then
    emit (Log INFO) ;;
    progress_setAndWriteToSim (Finite 0) ;;
    progressId_setAndWriteToSim 0 ;;
    modify (set_loadAircraftPresetRequest 0) ;;
    modify (set_loadingIsActive false) ;;
    ret true
  else
    modify (set_currentLoadingTime (currentLoadingTime s + dt * 1000)) ;;
    s1 <- get ;;
    if Qle_bool (currentLoadingTime s1) (currentDelay s1) then ret true
    else
      match nth_error (currentProcedure s1) (N.to_nat (currentStep s1)) with
      | Some step => fire_step step
      | None => ret true (* not reached: currentStep < size *)
      end.

(** Lines 81-104: no run is active, the request is positive, the aircraft is
    on the ground. *)
Definition start_run : M bool :=
  s <- get ;;
  match getProcedure (loadAircraftPresetRequest s) with
  | None =>
      emit (Log WARN) ;;
      modify (set_loadAircraftPresetRequest 0) ;;
      modify (set_loadingIsActive false) ;;
      ret true
  | Some requestedProcedure =>
      modify (set_currentProcedureID (loadAircraftPresetRequest s)) ;;
      modify (set_currentProcedure requestedProcedure) ;;
      modify (set_currentLoadingTime 0) ;;
      modify (set_currentDelay 0) ;;
      modify (set_currentStep 0) ;;
      modify (set_loadingIsActive true) ;;
      progress_setAndWriteToSim (Finite 0) ;;
      progressId_setAndWriteToSim 0 ;;
      emit (Log INFO) ;;
      ret true
  end.

(** [bool AircraftPresets::update(sGaugeDrawData* pData)], [dt] being
    [pData->dt] (seconds). *)
Definition update (dt : Q) : M bool :=
  s <- get ;;
  if negb (isInitialized s) then
    emit (Log ERROR) ;; ret false
  else if negb (aircraftIsReady s) then ret true
  else if (0 <? loadAircraftPresetRequest s)%Z then
    if negb (simOnGround s) then
      emit (Log WARN) ;;
      modify (set_loadAircraftPresetRequest 0) ;;
      modify (set_loadingIsActive false) ;;
      ret true
    else
      emit (UpdateFromSim ProgressVar) ;;
      emit (UpdateFromSim ProgressIdVar) ;;
      if negb (loadingIsActive s) then start_run else continue_run dt
  else if loadingIsActive s then
    emit (Log INFO) ;;
    modify (set_loadingIsActive false) ;;
    ret true
  else ret true.

(** The three components of a call's outcome. *)
Definition returned (dt : Q) (s : State) : bool := fst (fst (update dt s)).
Definition after (dt : Q) (s : State) : State := snd (fst (update dt s)).
Definition effects (dt : Q) (s : State) : list Event := snd (update dt s).



(** A sequence of calls, one per element of [dts], the cached variables left
    as the previous call set them. *)
Fixpoint ticks (dts : list Q) (s : State) : State :=
  match dts with
  | [] => s
  | dt :: dts' => ticks dts' (after dt s)
  end.

(** The states after each call of such a sequence, and the scripts each call
    evaluated. *)
Fixpoint history (dts : list Q) (s : State) : list State :=
  match dts with
  | [] => []
  | dt :: dts' => after dt s :: history dts' (after dt s)
  end.

Fixpoint scripts (dts : list Q) (s : State) : list (list string) :=
  match dts with
  | [] => []
  | dt :: dts' => executed (effects dt s) :: scripts dts' (after dt s)
  end.

(** The state a run starts in. *)
Definition started (p : Procedure) (s : State) : State :=
  mkState (isInitialized s) (aircraftIsReady s) (aircraftPresetVerbose s)
    (loadAircraftPresetRequest s) (simOnGround s) (Finite 0) 0
    (loadAircraftPresetRequest s) p true 0 0 0 (host s).

(** The state a completed run leaves. *)
Definition completed (s : State) : State :=
  mkState (isInitialized s) (aircraftIsReady s) (aircraftPresetVerbose s)
    0 (simOnGround s) (Finite 0) 0
    (currentProcedureID s) (currentProcedure s) false
    (currentLoadingTime s) (currentDelay s) (currentStep s) (host s).

(** ** The abnormal ends of a run (spec section 7), as tests on the state a
    call starts from. *)

(** Lines 65-73: a preset is requested while airborne. *)
Definition precondition_abort (s : State) : bool :=
  isInitialized s && aircraftIsReady s &&
  (0 <? loadAircraftPresetRequest s)%Z && negb (simOnGround s).

(** Lines 186-190: the request is back at 0 while a run is active. *)
Definition external_cancellation (s : State) : bool :=
  isInitialized s && aircraftIsReady s &&
  (loadAircraftPresetRequest s =? 0)%Z && loadingIsActive s.

(** Lines 86-91: the requested id is not in the repository. *)
Definition preset_not_found (s : State) : bool :=
  isInitialized s && aircraftIsReady s &&
  (0 <? loadAircraftPresetRequest s)%Z && simOnGround s &&
  negb (loadingIsActive s) &&
  match getProcedure (loadAircraftPresetRequest s) with
  | None => true
  | Some _ => false
  end.

Definition abnormal_termination (s : State) : bool :=
  precondition_abort s || external_cancellation s || preset_not_found s.

(** ** AircraftPresets::initialize and AircraftPresets::shutdown *)

Definition set_isInitialized (v : bool) (s : State) : State :=
  mkState v (aircraftIsReady s) (aircraftPresetVerbose s)
    (loadAircraftPresetRequest s) (simOnGround s) (progressAircraftPreset s)
    (progressAircraftPresetId s) (currentProcedureID s) (currentProcedure s)
    (loadingIsActive s) (currentLoadingTime s) (currentDelay s) (currentStep s)
    (host s).

(** [bool AircraftPresets::initialize()] (lines 37-53). The [make_..._var]
    calls bind the variables whose values are the fields of [State]; the one
    value the routine sets is the request,
    [loadAircraftPresetRequest->setAndWriteToSim(0)]. The run members
    ([loadingIsActive], [currentStep], ...) are not touched. *)
Definition initialize : M bool :=
  modify (set_loadAircraftPresetRequest 0) ;;
  modify (set_isInitialized true) ;;
  emit (Log INFO) ;;
  ret true.

(** [bool AircraftPresets::shutdown()] (lines 195-199). *)
Definition shutdown : M bool :=
  modify (set_isInitialized false) ;;
  emit Cout ;;
  ret true.

(** ** States and measures used to describe runs *)




(** An active run is bound to a registered preset: its id is positive and
    the repository maps it to the procedure being executed. *)
Definition run_bound (s : State) : Prop :=
  loadingIsActive s = true ->
  (0 < currentProcedureID s)%Z /\
  getProcedure (currentProcedureID s) = Some (currentProcedure s).


End Loader.


(** A progress value is zero. *)
Definition is_zero (v : quotient) : bool :=
  match v with
  | Finite q => Qeq_bool q 0
  | NonFinite => false
  end.

End AircraftPresets.

(** * Test scenarios

    Concrete collaborators and procedures, used to run the loader. *)
Module Scenario.
Import AircraftPresets.

(** A scripting service for tests: the host is the queue of the results still
    to be returned, an exhausted queue yields 0. *)
Definition Mock : Type := list Q.

Definition mock_calculator (code : string) (h : Mock) : Mock * Q :=
  match h with
  | [] => ([], 0)
  | v :: h' => (h', v)
  end.

(** Modelled from the spec: helper::Math::almostEqual (math_utils.hpp is not
    among the sources), a tolerance-based comparison of two floating-point
    values. *)
Definition epsilon : Q := 1 # (2 ^ 52).
Definition almostEqual (a b : Q) : bool := Qle_bool (Qabs (a - b)) epsilon.

(** Three action steps without expected-state checks, delays 100, 200 and
    0 ms. *)
Definition three_steps : Procedure :=
  [ mkStep "first" 11 false 100 EmptyString "1 (>L:FIRST)";
    mkStep "second" 12 false 200 EmptyString "1 (>L:SECOND)";
    mkStep "third" 13 false 0 EmptyString "1 (>L:THIRD)" ].

(** One action step with an expected-state check. *)
Definition checked_step : ProcedureStep :=
  mkStep "battery" 21 false 1000 "(L:BAT) 1 ==" "1 (>L:BAT)".

Definition checked : Procedure := [checked_step].

(** Preset 1 is [three_steps], preset 2 the empty procedure, preset 3
    [checked]; nothing else is registered. *)
Definition repository (id : Z) : option Procedure :=
  if (id =? 1)%Z then Some three_steps
  else if (id =? 2)%Z then Some []
  else if (id =? 3)%Z then Some checked
  else None.

(** The loader after [initialize], aircraft ready and on the ground, on a
    host [h]. *)
Definition parked (Host : Type) (h : Host) : State Host :=
  mkState true true false 0 true (Finite 0) 0 0 [] false 0 0 0 h.

(** The same with preset [r] requested. *)
Definition requested (Host : Type) (r : Z) (h : Host) : State Host :=
  set_loadAircraftPresetRequest r (parked h).

(** A run of preset [r] over procedure [p], [step] steps done, the progress
    outputs at [v] and [i]. *)
Definition running (Host : Type) (r : Z) (p : Procedure) (step : N)
    (v : quotient) (i : Z) (h : Host) : State Host :=
  mkState true true false r true v i r p true 0 0 step h.

(** What the next pre-update reads from the simulator: request [r] and
    on-ground flag [g]. *)
Definition sim_inputs (Host : Type) (r : Z) (g : bool) (s : State Host)
    : State Host :=
  mkState (isInitialized s) (aircraftIsReady s) (aircraftPresetVerbose s)
    r g (progressAircraftPreset s) (progressAircraftPresetId s)
    (currentProcedureID s) (currentProcedure s) (loadingIsActive s)
    (currentLoadingTime s) (currentDelay s) (currentStep s) (host s).

(** One tick on the mock host. *)
Definition mock_update : Q -> M Mock bool :=
  update mock_calculator almostEqual repository.
Definition mock_after : Q -> State Mock -> State Mock :=
  after mock_calculator almostEqual repository.
Definition mock_effects : Q -> State Mock -> list Event :=
  effects mock_calculator almostEqual repository.
Definition mock_ticks : list Q -> State Mock -> State Mock :=
  ticks mock_calculator almostEqual repository.

(** 50 ms, in seconds. *)
Definition dt50 : Q := 50 / 1000.

(** Preset 1 two steps into its run: the start tick and five ticks of
    50 ms. *)
Definition mid_run : State Mock :=
  mock_ticks (repeat dt50 6) (requested 1 []).

(** Preset 1 with its second step about to fire: the start tick and three
    ticks of 50 ms. *)
Definition second_due : State Mock :=
  mock_ticks (repeat dt50 4) (requested 1 []).

(** Preset 3 just started, the host answering the next script with [v]. *)
Definition checked_run (v : Q) : State Mock :=
  mock_after dt50 (requested 3 [v]).

(** Preset 1 requested on the ground before the aircraft is ready. *)
Definition not_ready : State Mock :=
  mkState true false false 1 true (Finite 0) 0 0 [] false 0 0 0 [].

(** A conditional step, polled every 500 ms, and a run of a one-step
    procedure waiting on it, the host answering the next script with [v]. *)
Definition polling_step : ProcedureStep :=
  mkStep "wait for power" 31 true 500 EmptyString "(L:POWERED)".

Definition polling_run (v : Q) : State Mock :=
  running 4 [polling_step] 0 (Finite 0) 0 [v].

End Scenario.

(** * Properties of [update] *)

Import AircraftPresets.

Unset Implicit Arguments.

Section Properties.

Variable Host : Type.
Variable calculator : string -> Host -> Host * Q.
Variable almostEqual : Q -> Q -> bool.
Variable getProcedure : Z -> option Procedure.

Local Abbreviation update := (AircraftPresets.update calculator almostEqual getProcedure).
Local Abbreviation after := (AircraftPresets.after calculator almostEqual getProcedure).
Local Abbreviation effects := (AircraftPresets.effects calculator almostEqual getProcedure).
Local Abbreviation returned := (AircraftPresets.returned calculator almostEqual getProcedure).
Local Abbreviation ticks := (AircraftPresets.ticks calculator almostEqual getProcedure).

Ltac unfold_tick :=
  cbv beta iota zeta delta
    [AircraftPresets.update AircraftPresets.after AircraftPresets.effects
     AircraftPresets.returned
     start_run continue_run fire_step execute_action
     progress_setAndWriteToSim progressId_setAndWriteToSim
     execute_calculator_code when bind ret get modify emit].

Ltac split_tick :=
  repeat (cbn;
    match goal with
    | |- context [if ?b then _ else _] => destruct b eqn:?
    | |- context [match getProcedure ?r with _ => _ end] =>
        destruct (getProcedure r) eqn:?
    | |- context [match nth_error ?l ?n with _ => _ end] =>
        destruct (nth_error l n) eqn:?
    end); cbn.

(** *** The branches of one call, as equations *)

Lemma update_uninitialized (dt : Q) (s : State Host) :
  isInitialized s = false -> update dt s = (false, s, [Log ERROR]).
Proof. intros H. unfold_tick. rewrite H. reflexivity. Qed.

Lemma update_not_ready (dt : Q) (s : State Host) :
  isInitialized s = true -> aircraftIsReady s = false ->
  update dt s = (true, s, []).
Proof. intros H1 H2. unfold_tick. rewrite H1, H2. reflexivity. Qed.

Lemma update_idle (dt : Q) (s : State Host) :
  (loadAircraftPresetRequest s <= 0)%Z -> loadingIsActive s = false ->
  after dt s = s /\ (effects dt s = [] \/ effects dt s = [Log ERROR]).
Proof.
  intros Hr Ha. apply Z.ltb_ge in Hr. unfold_tick.
  rewrite Hr, Ha. split_tick; auto.
Qed.

Lemma update_cancel (dt : Q) (s : State Host) :
  isInitialized s = true -> aircraftIsReady s = true ->
  (loadAircraftPresetRequest s <= 0)%Z -> loadingIsActive s = true ->
  update dt s = (true, set_loadingIsActive false s, [Log INFO]).
Proof.
  intros H1 H2 Hr Ha. apply Z.ltb_ge in Hr. unfold_tick.
  rewrite H1, H2, Hr, Ha. reflexivity.
Qed.

Lemma update_airborne (dt : Q) (s : State Host) :
  isInitialized s = true -> aircraftIsReady s = true ->
  (0 < loadAircraftPresetRequest s)%Z -> simOnGround s = false ->
  update dt s =
    (true, set_loadingIsActive false (set_loadAircraftPresetRequest 0 s),
     [Log WARN]).
Proof.
  intros H1 H2 Hr Hg. apply Z.ltb_lt in Hr. unfold_tick.
  rewrite H1, H2, Hr, Hg. reflexivity.
Qed.

Lemma update_not_found (dt : Q) (s : State Host) :
  isInitialized s = true -> aircraftIsReady s = true ->
  (0 < loadAircraftPresetRequest s)%Z -> simOnGround s = true ->
  loadingIsActive s = false ->
  getProcedure (loadAircraftPresetRequest s) = None ->
  update dt s =
    (true, set_loadingIsActive false (set_loadAircraftPresetRequest 0 s),
     [UpdateFromSim ProgressVar; UpdateFromSim ProgressIdVar; Log WARN]).
Proof.
  intros H1 H2 Hr Hg Ha Hp. apply Z.ltb_lt in Hr. unfold_tick.
  rewrite H1, H2, Hr, Hg, Ha. cbn. rewrite Hp. reflexivity.
Qed.

Lemma update_start (dt : Q) (s : State Host) (p : Procedure) :
  isInitialized s = true -> aircraftIsReady s = true ->
  (0 < loadAircraftPresetRequest s)%Z -> simOnGround s = true ->
  loadingIsActive s = false ->
  getProcedure (loadAircraftPresetRequest s) = Some p ->
  update dt s =
    (true, started p s,
     [UpdateFromSim ProgressVar; UpdateFromSim ProgressIdVar;
      WriteProgress (Finite 0); WriteProgressId 0; Log INFO]).
Proof.
  intros H1 H2 Hr Hg Ha Hp. apply Z.ltb_lt in Hr. unfold_tick.
  rewrite H1, H2, Hr, Hg, Ha. cbn. rewrite Hp. reflexivity.
Qed.

Lemma update_complete (dt : Q) (s : State Host) :
  isInitialized s = true -> aircraftIsReady s = true ->
  (0 < loadAircraftPresetRequest s)%Z -> simOnGround s = true ->
  loadingIsActive s = true ->
  (size (currentProcedure s) <= currentStep s)%N ->
  update dt s =
    (true, completed s,
     [UpdateFromSim ProgressVar; UpdateFromSim ProgressIdVar; Log INFO;
      WriteProgress (Finite 0); WriteProgressId 0]).
Proof.
  intros H1 H2 Hr Hg Ha Hs. apply Z.ltb_lt in Hr. apply N.leb_le in Hs.
  unfold_tick. rewrite H1, H2, Hr, Hg, Ha. cbn. rewrite Hs. reflexivity.
Qed.

(** *** Arithmetic of the step counter and of the progress fraction *)

Lemma size_t_incr_le (n : N) : (size_t_incr n <= n + 1)%N.
Proof. unfold size_t_incr. apply N.Div0.mod_le. Qed.

Lemma size_t_incr_in_range (n m : N) :
  (n < m)%N -> (m <= SIZE_MAX)%N -> size_t_incr n = (n + 1)%N.
Proof.
  unfold size_t_incr, SIZE_MAX. intros Hn Hm.
  apply N.mod_small.
  assert (0 < SIZE_MODULUS)%N by reflexivity. lia.
Qed.

Lemma double_div_lt (a b : N) :
  (a < b)%N -> exists q, double_div a b = Finite q /\ 0 <= q /\ q < 1.
Proof.
  intros Hab. unfold double_div.
  destruct (N.eqb_spec b 0) as [-> | Hb]; [lia |].
  assert (Hpos : 0 < inject_Z (Z.of_N b)).
  { change 0 with (inject_Z 0). rewrite <- Zlt_Qlt. lia. }
  eexists; split; [reflexivity | split].
  - apply Qle_shift_div_l; [exact Hpos |].
    rewrite Qmult_0_l. change 0 with (inject_Z 0). rewrite <- Zle_Qle. lia.
  - apply Qlt_shift_div_r; [exact Hpos |].
    rewrite Qmult_1_l. rewrite <- Zlt_Qlt. lia.
Qed.

Ltac bool_hyps :=
  repeat match goal with
  | H : negb _ = true |- _ => apply negb_true_iff in H
  | H : negb _ = false |- _ => apply negb_false_iff in H
  end.

(** *** One call and short runs *)

(** C1 (amended): one call evaluates at most two script strings; when it
    evaluates two, the step in focus is an action step with a non-empty
    expected-state check whose result is approximately zero, and the two
    evaluations are that check followed by the step's action script. In every
    other case at most one script string is evaluated. *)
Theorem C1_at_most_check_then_action (dt : Q) (s : State Host) :
  executed (effects dt s) = [] \/
  (exists c, executed (effects dt s) = [c]) \/
  (exists step,
      nth_error (currentProcedure s) (N.to_nat (currentStep s)) = Some step /\
      isConditional step = false /\
      empty (expectedStateCheckCode step) = false /\
      almostEqual 0 (snd (calculator (expectedStateCheckCode step) (host s))) = true /\
      executed (effects dt s) = [expectedStateCheckCode step; actionCode step]).
Proof.
  unfold_tick. split_tick; eauto; bool_hyps;
    right; right; eexists; repeat split; eauto.
Qed.

(** C2 (amended): on each abnormal end of a run (request while airborne,
    request back at 0 during a run, requested preset not found) the call
    leaves [loadingIsActive] false and does not write the two progress
    outputs: they keep the values they had before the call. *)
Theorem C2_abnormal_end_keeps_progress (dt : Q) (s : State Host) :
  abnormal_termination getProcedure s = true ->
  loadingIsActive (after dt s) = false /\
  progress_writes (effects dt s) = [] /\
  progress_id_writes (effects dt s) = [] /\
  progressAircraftPreset (after dt s) = progressAircraftPreset s /\
  progressAircraftPresetId (after dt s) = progressAircraftPresetId s.
Proof.
  unfold abnormal_termination, precondition_abort, external_cancellation,
    preset_not_found.
  rewrite !orb_true_iff, !andb_true_iff.
  unfold AircraftPresets.after, AircraftPresets.effects.
  intros [[H | H] | H].
  - destruct H as [[[Hi Hr] Hq] Hg].
    apply Z.ltb_lt in Hq. apply negb_true_iff in Hg.
    rewrite (update_airborne dt s Hi Hr Hq Hg). cbn. auto.
  - destruct H as [[[Hi Hr] Hq] Ha].
    apply Z.eqb_eq in Hq.
    rewrite (update_cancel dt s Hi Hr ltac:(lia) Ha). cbn. auto.
  - destruct H as [[[[[Hi Hr] Hq] Hg] Ha] Hp].
    apply Z.ltb_lt in Hq. apply negb_true_iff in Ha.
    destruct (getProcedure (loadAircraftPresetRequest s)) eqn:Hl;
      [discriminate |].
    rewrite (update_not_found dt s Hi Hr Hq Hg Ha Hl). cbn. auto.
Qed.

(** C3: when an action step with a non-empty expected-state check fires and
    the check evaluates to a result that is not approximately zero, the call
    advances [currentStep] by one, sets [currentDelay] to 0 and evaluates the
    check only, not the step's action script. *)
Theorem C3_skip_ahead (dt : Q) (s : State Host) (step : ProcedureStep) :
  isInitialized s = true -> aircraftIsReady s = true ->
  (0 < loadAircraftPresetRequest s)%Z -> simOnGround s = true ->
  loadingIsActive s = true ->
  (size (currentProcedure s) <= SIZE_MAX)%N ->
  Qle_bool (currentLoadingTime s + dt * 1000) (currentDelay s) = false ->
  nth_error (currentProcedure s) (N.to_nat (currentStep s)) = Some step ->
  isConditional step = false ->
  empty (expectedStateCheckCode step) = false ->
  almostEqual 0 (snd (calculator (expectedStateCheckCode step) (host s))) = false ->
  currentStep (after dt s) = (currentStep s + 1)%N /\
  currentDelay (after dt s) = 0 /\
  executed (effects dt s) = [expectedStateCheckCode step].
Proof.
  intros Hi Hr Hq Hg Ha Hmax Ht Hn Hc He Hz.
  assert (Hlt : (currentStep s < size (currentProcedure s))%N).
  { unfold size.
    assert (N.to_nat (currentStep s) < List.length (currentProcedure s))%nat
      by (apply nth_error_Some; congruence).
    lia. }
  assert (Hs : (size (currentProcedure s) <=? currentStep s)%N = false)
    by (apply N.leb_gt; exact Hlt).
  apply Z.ltb_lt in Hq.
  unfold_tick. rewrite Hi, Hr, Hq, Hg, Ha. cbn.
  rewrite Hs. cbn. rewrite Ht, Hn. cbn. rewrite Hc, He. cbn.
  destruct (aircraftPresetVerbose s); cbn; rewrite Hz; cbn;
    (split; [apply (size_t_incr_in_range _ _ Hlt Hmax) | split; reflexivity]).
Qed.

(** C4: on a tick with a positive request and the on-ground flag false, no
    run is started and no step is executed: [currentStep] does not move, no
    script is evaluated and no progress is written; the request is forced to
    0 and [loadingIsActive] becomes false (the call being past its
    initialised and aircraft-ready gates). *)
Theorem C4_airborne_request_rejected (dt : Q) (s : State Host) :
  (0 < loadAircraftPresetRequest s)%Z -> simOnGround s = false ->
  (isInitialized s = true -> aircraftIsReady s = true ->
   loadAircraftPresetRequest (after dt s) = 0%Z /\
   loadingIsActive (after dt s) = false) /\
  (loadingIsActive s = false -> loadingIsActive (after dt s) = false) /\
  currentStep (after dt s) = currentStep s /\
  executed (effects dt s) = [] /\
  progress_writes (effects dt s) = [] /\
  progress_id_writes (effects dt s) = [].
Proof.
  intros Hq Hg. apply Z.ltb_lt in Hq.
  unfold_tick. cbn. rewrite Hq, Hg.
  destruct (isInitialized s), (aircraftIsReady s); cbn;
    repeat split; auto; intros; discriminate.
Qed.

(** C5: across one call [currentStep] increases by at most 1, from every
    state and for every request, on-ground flag, tick delta and script
    result. *)
Theorem C5_at_most_one_step_per_tick (dt : Q) (s : State Host) :
  (currentStep (after dt s) <= currentStep s + 1)%N.
Proof.
  unfold_tick. split_tick; try apply size_t_incr_le; lia.
Qed.

(** C6: for a procedure with zero steps, the call after the one that
    starts the run takes the completion path: both progress outputs are
    written as 0, the request is cleared to 0, [loadingIsActive] becomes
    false, and neither call evaluates a script. *)
Theorem C6_empty_procedure_completes (dt1 dt2 : Q) (s : State Host) :
  isInitialized s = true -> aircraftIsReady s = true ->
  (0 < loadAircraftPresetRequest s)%Z -> simOnGround s = true ->
  loadingIsActive s = false ->
  getProcedure (loadAircraftPresetRequest s) = Some [] ->
  loadingIsActive (after dt1 s) = true /\
  progress_writes (effects dt2 (after dt1 s)) = [Finite 0] /\
  progress_id_writes (effects dt2 (after dt1 s)) = [0%Z] /\
  progressAircraftPreset (after dt2 (after dt1 s)) = Finite 0 /\
  progressAircraftPresetId (after dt2 (after dt1 s)) = 0%Z /\
  loadAircraftPresetRequest (after dt2 (after dt1 s)) = 0%Z /\
  loadingIsActive (after dt2 (after dt1 s)) = false /\
  executed (effects dt1 s) = [] /\
  executed (effects dt2 (after dt1 s)) = [].
Proof.
  intros Hi Hr Hq Hg Ha Hp.
  unfold AircraftPresets.after, AircraftPresets.effects.
  rewrite (update_start dt1 s [] Hi Hr Hq Hg Ha Hp). cbn [fst snd].
  rewrite (update_complete dt2 (started [] s));
    [cbn; auto 10 | assumption .. | reflexivity | cbn; lia].
Qed.

(** C8: with the request at 0 and no run active, a call changes nothing in
    the state and writes no signal (no progress output, no script); any
    number of such calls leaves the state identical. *)
Theorem C8_idle_tick_is_noop (dts : list Q) (dt : Q) (s : State Host) :
  loadAircraftPresetRequest s = 0%Z -> loadingIsActive s = false ->
  after dt s = s /\
  progress_writes (effects dt s) = [] /\
  progress_id_writes (effects dt s) = [] /\
  executed (effects dt s) = [] /\
  ticks dts s = s.
Proof.
  intros Hq Ha.
  assert (Hstep : forall d, after d s = s).
  { intros d. apply update_idle; [lia | exact Ha]. }
  split; [apply Hstep |].
  destruct (update_idle dt s ltac:(lia) Ha) as [_ [-> | ->]]; cbn;
    (repeat split; try reflexivity);
    induction dts as [| d dts IH]; cbn; try reflexivity;
    rewrite Hstep; exact IH.
Qed.

(** C9: a negative request is handled as a request of 0. The call returns
    the same value, has the same effects and leaves the same state (up to
    the request value itself) as with the request at 0; an active run is
    cancelled ([loadingIsActive] false once the loader is initialised and
    the aircraft ready), [currentStep] does not move, no script is
    evaluated, with no active run the state is unchanged, and no run is
    started. *)
Theorem C9_negative_request_as_zero (dt : Q) (s : State Host) :
  (loadAircraftPresetRequest s < 0)%Z ->
  (returned dt s = returned dt (set_loadAircraftPresetRequest 0 s) /\
   effects dt s = effects dt (set_loadAircraftPresetRequest 0 s) /\
   set_loadAircraftPresetRequest 0 (after dt s) =
     after dt (set_loadAircraftPresetRequest 0 s)) /\
  (isInitialized s = true -> aircraftIsReady s = true ->
   loadingIsActive (after dt s) = false) /\
  currentStep (after dt s) = currentStep s /\
  executed (effects dt s) = [] /\
  (loadingIsActive s = false -> after dt s = s) /\
  (loadingIsActive s = false -> loadingIsActive (after dt s) = false).
Proof.
  intros Hq. assert (Hq' : (0 <? loadAircraftPresetRequest s)%Z = false)
    by (apply Z.ltb_ge; lia).
  unfold_tick. cbn. rewrite Hq'.
  destruct (isInitialized s) eqn:Hi, (aircraftIsReady s) eqn:Hr,
    (loadingIsActive s) eqn:Ha; cbn;
    repeat split; try reflexivity; try discriminate; intros;
    try discriminate; try assumption;
    destruct s; cbn in *; congruence.
Qed.

(** C10: every value a call writes to the fractional progress output is
    either the literal 0 of the start and completion paths or the quotient
    [currentStep / size] computed with [currentStep < size], hence with a
    strictly positive divisor; in both cases it is a finite value in
    [0, 1). *)
Theorem C10_progress_fraction_in_range (dt : Q) (s : State Host) (v : quotient) :
  In v (progress_writes (effects dt s)) ->
  (v = Finite 0 \/
   ((currentStep s < size (currentProcedure s))%N /\
    v = double_div (currentStep s) (size (currentProcedure s)))) /\
  exists q, v = Finite q /\ 0 <= q /\ q < 1.
Proof.
  assert (Hzero : exists q, Finite 0 = Finite q /\ 0 <= q /\ q < 1).
  { exists 0. split; [reflexivity | split; [apply Qle_refl | reflexivity]]. }
  unfold_tick. split_tick; intros Hin; cbn in Hin;
    try contradiction;
    destruct Hin as [<- | []];
    try (split; [left; reflexivity | exact Hzero]);
    match goal with
    | H : (_ <=? _)%N = false |- _ => apply N.leb_gt in H
    end;
    (split; [right; split; [assumption | reflexivity]
            | apply double_div_lt; assumption]).
Qed.

(** *** Further properties of one call *)

Lemma Qle_bool_false (a b : Q) : Qle_bool a b = false <-> b < a.
Proof.
  split; intros H.
  - apply Qnot_le_lt. intros Hle. apply Qle_bool_iff in Hle. congruence.
  - destruct (Qle_bool a b) eqn:E; [| reflexivity].
    apply Qle_bool_iff in E. exfalso. exact (Qlt_not_le _ _ H E).
Qed.



(** X1: [update] returns [false] exactly when the loader is not
    initialised; every other path returns [true]. *)
Theorem update_returns_initialized (dt : Q) (s : State Host) :
  returned dt s = isInitialized s.
Proof.
  unfold_tick. split_tick; bool_hyps; congruence.
Qed.

(** X2: until the loader is initialised and the aircraft is ready a call
    does nothing, whatever the request, the on-ground flag and the run
    state: the state is unchanged, no script is evaluated and no progress
    output is written. *)
Theorem update_gated_is_noop (dt : Q) (s : State Host) :
  isInitialized s && aircraftIsReady s = false ->
  after dt s = s /\
  executed (effects dt s) = [] /\
  progress_writes (effects dt s) = [] /\
  progress_id_writes (effects dt s) = [].
Proof.
  intros H. apply andb_false_iff in H.
  unfold AircraftPresets.after, AircraftPresets.effects.
  destruct (isInitialized s) eqn:Hi.
  - destruct H as [H | H]; [discriminate |].
    rewrite (update_not_ready dt s Hi H). cbn. auto.
  - rewrite (update_uninitialized dt s Hi). cbn. auto.
Qed.

(** X3: a call evaluates a script only when the loader is initialised, the
    aircraft is ready and on the ground, the request is positive, a run is
    already active with steps left, and the delay has elapsed. In
    particular no script runs while airborne, on the tick that starts a run,
    on the tick that completes it, or during a delay. *)
Theorem scripts_need_running_ground_run (dt : Q) (s : State Host) :
  executed (effects dt s) <> [] ->
  isInitialized s = true /\ aircraftIsReady s = true /\
  (0 < loadAircraftPresetRequest s)%Z /\ simOnGround s = true /\
  loadingIsActive s = true /\
  (currentStep s < size (currentProcedure s))%N /\
  currentDelay s < currentLoadingTime s + dt * 1000.
Proof.
  unfold_tick. split_tick; intros Hne; try (exfalso; apply Hne; reflexivity);
    bool_hyps;
    repeat match goal with
    | H : (0 <? _)%Z = true |- _ => apply Z.ltb_lt in H
    | H : (_ <=? _)%N = false |- _ => apply N.leb_gt in H
    | H : Qle_bool _ _ = false |- _ => apply Qle_bool_false in H
    end;
    auto 10.
Qed.

(** X4: the step counter never overruns the procedure. If [currentStep] is
    at most the size of the bound procedure before a call, it is so after
    it, and after any sequence of calls. *)
Theorem step_counter_stays_in_procedure (dts : list Q) (s : State Host) :
  (currentStep s <= size (currentProcedure s))%N ->
  (currentStep (ticks dts s) <= size (currentProcedure (ticks dts s)))%N.
Proof.
  revert s. induction dts as [| dt dts IH]; intros s Hs; [exact Hs |].
  cbn. apply IH. clear IH.
  revert Hs. unfold_tick. split_tick; intros Hs; try exact Hs; try lia;
    match goal with
    | H : (_ <=? _)%N = false |- _ => apply N.leb_gt in H
    end;
    pose proof (size_t_incr_le (currentStep s)); lia.
Qed.

(** X5: an active run stays bound to a registered preset. If, whenever a
    run is active, [currentProcedureID] is positive and the repository maps
    it to [currentProcedure], the same holds after a call; a state with no
    active run satisfies this vacuously, so it holds along every execution
    from an idle loader. *)
Theorem run_stays_bound (dts : list Q) (s : State Host) :
  run_bound getProcedure s ->
  run_bound getProcedure (ticks dts s).
Proof.
  revert s. induction dts as [| dt dts IH]; intros s Hs; [exact Hs |].
  cbn. apply IH. clear IH.
  revert Hs. unfold run_bound. unfold_tick.
  split_tick; intros Hs Ha; cbn in *; try discriminate; auto;
    bool_hyps; try congruence;
    match goal with
    | H : (0 <? _)%Z = true |- _ => apply Z.ltb_lt in H
    end;
    split; assumption.
Qed.

(** X6: after a call made with the loader initialised and the aircraft
    ready, request and run state agree: if a run is active the request
    holds the id of the running procedure, and if no run is active the
    request is not positive. *)
Theorem request_agrees_with_run_state (dt : Q) (s : State Host) :
  isInitialized s = true -> aircraftIsReady s = true ->
  (loadingIsActive (after dt s) = true ->
   loadAircraftPresetRequest (after dt s) = currentProcedureID (after dt s)) /\
  (loadingIsActive (after dt s) = false ->
   (loadAircraftPresetRequest (after dt s) <= 0)%Z).
Proof.
  intros Hi Hr. unfold_tick. cbn. rewrite Hi, Hr.
  split_tick; split; intros Ha; try discriminate; try reflexivity; try lia;
    try (match goal with
         | H : (0 <? _)%Z = false |- _ => apply Z.ltb_ge in H; exact H
         end);
    bool_hyps; congruence.
Qed.

(** X7: while a run is active only 0 interrupts it. With the loader
    initialised and the aircraft ready, two calls from states that differ
    only in the (positive) value of the request return the same value, leave
    the same state and have the same effects. *)
Theorem positive_request_ignored_mid_run (dt : Q) (r1 r2 : Z) (s : State Host) :
  isInitialized s = true -> aircraftIsReady s = true ->
  loadingIsActive s = true ->
  (0 < r1)%Z -> (0 < r2)%Z ->
  update dt (set_loadAircraftPresetRequest r1 s) =
  update dt (set_loadAircraftPresetRequest r2 s).
Proof.
  intros Hi Hr Ha H1 H2. apply Z.ltb_lt in H1. apply Z.ltb_lt in H2.
  unfold_tick. cbn. rewrite Hi, Hr, Ha, H1, H2. cbn.
  split_tick; reflexivity.
Qed.

(** X8: a conditional step polls. On the tick where it fires, its
    [actionCode] is the one script evaluated and the progress outputs show
    the step; if the result is approximately zero the loader stays on the
    step and re-arms the delay with [delayAfter], otherwise it advances and
    clears the delay. *)
Theorem conditional_step_polls (dt : Q) (s : State Host) (step : ProcedureStep) :
  isInitialized s = true -> aircraftIsReady s = true ->
  (0 < loadAircraftPresetRequest s)%Z -> simOnGround s = true ->
  loadingIsActive s = true ->
  (size (currentProcedure s) <= SIZE_MAX)%N ->
  currentDelay s < currentLoadingTime s + dt * 1000 ->
  nth_error (currentProcedure s) (N.to_nat (currentStep s)) = Some step ->
  isConditional step = true ->
  executed (effects dt s) = [actionCode step] /\
  progress_writes (effects dt s)
    = [double_div (currentStep s) (size (currentProcedure s))] /\
  progress_id_writes (effects dt s) = [id step] /\
  (if almostEqual 0 (snd (calculator (actionCode step) (host s)))
   then currentStep (after dt s) = currentStep s /\
        currentDelay (after dt s)
          = currentLoadingTime s + dt * 1000 + delayAfter step
   else currentStep (after dt s) = (currentStep s + 1)%N /\
        currentDelay (after dt s) = 0).
Proof.
  intros Hi Hr Hq Hg Ha Hmax Ht Hn Hc.
  assert (Hlt : (currentStep s < size (currentProcedure s))%N).
  { unfold size.
    assert (N.to_nat (currentStep s) < List.length (currentProcedure s))%nat
      by (apply nth_error_Some; congruence).
    lia. }
  assert (Hs : (size (currentProcedure s) <=? currentStep s)%N = false)
    by (apply N.leb_gt; exact Hlt).
  apply Z.ltb_lt in Hq. apply Qle_bool_false in Ht.
  unfold_tick. rewrite Hi, Hr, Hq, Hg, Ha. cbn.
  rewrite Hs. cbn. rewrite Ht, Hn. cbn. rewrite Hc. cbn.
  destruct (almostEqual 0 (snd (calculator (actionCode step) (host s))));
    cbn; repeat split; try reflexivity.
  apply (size_t_incr_in_range _ _ Hlt Hmax).
Qed.

(** X9: an action step is executed when it has no expected-state check or
    when its check evaluates to approximately zero. On that tick the check
    (if any) and then the action script are evaluated, the progress outputs
    show the step, [currentStep] advances by one and the next step is held
    back until [delayAfter] has passed. *)
Theorem action_step_executes (dt : Q) (s : State Host) (step : ProcedureStep) :
  isInitialized s = true -> aircraftIsReady s = true ->
  (0 < loadAircraftPresetRequest s)%Z -> simOnGround s = true ->
  loadingIsActive s = true ->
  (size (currentProcedure s) <= SIZE_MAX)%N ->
  currentDelay s < currentLoadingTime s + dt * 1000 ->
  nth_error (currentProcedure s) (N.to_nat (currentStep s)) = Some step ->
  isConditional step = false ->
  empty (expectedStateCheckCode step)
    || almostEqual 0 (snd (calculator (expectedStateCheckCode step) (host s)))
    = true ->
  executed (effects dt s)
    = (if empty (expectedStateCheckCode step) then []
       else [expectedStateCheckCode step]) ++ [actionCode step] /\
  progress_writes (effects dt s)
    = [double_div (currentStep s) (size (currentProcedure s))] /\
  progress_id_writes (effects dt s) = [id step] /\
  currentStep (after dt s) = (currentStep s + 1)%N /\
  currentLoadingTime (after dt s) = currentLoadingTime s + dt * 1000 /\
  currentDelay (after dt s)
    = currentLoadingTime s + dt * 1000 + delayAfter step.
Proof.
  intros Hi Hr Hq Hg Ha Hmax Ht Hn Hc Hz.
  assert (Hlt : (currentStep s < size (currentProcedure s))%N).
  { unfold size.
    assert (N.to_nat (currentStep s) < List.length (currentProcedure s))%nat
      by (apply nth_error_Some; congruence).
    lia. }
  assert (Hs : (size (currentProcedure s) <=? currentStep s)%N = false)
    by (apply N.leb_gt; exact Hlt).
  pose proof (size_t_incr_in_range _ _ Hlt Hmax) as Hincr.
  apply Z.ltb_lt in Hq. apply Qle_bool_false in Ht.
  unfold_tick. rewrite Hi, Hr, Hq, Hg, Ha. cbn.
  rewrite Hs. cbn. rewrite Ht, Hn. cbn. rewrite Hc.
  destruct (empty (expectedStateCheckCode step)) eqn:He; cbn.
  - repeat split; try reflexivity; exact Hincr.
  - cbn in Hz.
    destruct (aircraftPresetVerbose s); cbn; rewrite Hz; cbn;
      repeat split; try reflexivity; exact Hincr.
Qed.

(** *** Sequences of calls *)



Lemma inactive_after_nonpositive (dt : Q) (s : State Host) :
  isInitialized s = true -> aircraftIsReady s = true ->
  loadingIsActive (after dt s) = false ->
  (loadAircraftPresetRequest (after dt s) <= 0)%Z.
Proof.
  intros Hi Hr. unfold_tick. cbn. rewrite Hi, Hr.
  split_tick; intros Ha; try discriminate; try lia;
    try (match goal with
         | H : (0 <? _)%Z = false |- _ => apply Z.ltb_ge in H; exact H
         end);
    bool_hyps; congruence.
Qed.

(** X11: whenever a call, made with the loader initialised and the aircraft
    ready, ends with no run active (rejection, cancellation, completion or
    idle), the loader is dormant: any number of further calls leave the
    state exactly as it is, until the request is changed from outside. *)
Theorem inactive_loader_is_dormant (dts : list Q) (dt : Q) (s : State Host) :
  isInitialized s = true -> aircraftIsReady s = true ->
  loadingIsActive (after dt s) = false ->
  ticks dts (after dt s) = after dt s.
Proof.
  intros Hi Hr Ha.
  pose proof (inactive_after_nonpositive dt s Hi Hr Ha) as Hq.
  induction dts as [| d dts IH]; [reflexivity |].
  cbn [AircraftPresets.ticks].
  destruct (update_idle d (after dt s) Hq Ha) as [-> _]. exact IH.
Qed.

(** X12: the two progress outputs are written together and at most once per
    call: either none is written, or both are written as 0 (start and
    completion), or the fraction [currentStep / size] and the id of the
    step in focus are written. *)
Theorem progress_outputs_written_together (dt : Q) (s : State Host) :
  (progress_writes (effects dt s) = [] /\
   progress_id_writes (effects dt s) = []) \/
  (progress_writes (effects dt s) = [Finite 0] /\
   progress_id_writes (effects dt s) = [0%Z]) \/
  (exists step,
      nth_error (currentProcedure s) (N.to_nat (currentStep s)) = Some step /\
      progress_writes (effects dt s)
        = [double_div (currentStep s) (size (currentProcedure s))] /\
      progress_id_writes (effects dt s) = [id step]).
Proof.
  unfold_tick. split_tick; auto; right; right; eexists; auto.
Qed.

(** X13: a call never changes what the loader only reads (initialised
    flag, aircraft-ready gate, verbose flag, on-ground flag), and it never
    swaps the procedure of an active run: with a run active before the
    call, [currentProcedure] and [currentProcedureID] are the same after
    it. *)
Theorem update_frame (dt : Q) (s : State Host) :
  isInitialized (after dt s) = isInitialized s /\
  aircraftIsReady (after dt s) = aircraftIsReady s /\
  aircraftPresetVerbose (after dt s) = aircraftPresetVerbose s /\
  simOnGround (after dt s) = simOnGround s /\
  (loadingIsActive s = true ->
   currentProcedure (after dt s) = currentProcedure s /\
   currentProcedureID (after dt s) = currentProcedureID s).
Proof.
  unfold_tick.
  destruct (loadingIsActive s) eqn:Ha;
    split_tick; repeat split; intros; try reflexivity; try assumption;
    discriminate.
Qed.




(** X15: a cancelled run leaves nothing behind for the next one. From any
    active run, a call with the request at 0 cancels without evaluating a
    script, and a following call with a registered preset requested on the
    ground starts that preset from step 0 with timer and delay at 0 and both
    progress outputs at 0, again without evaluating a script. *)
Theorem cancel_then_restart_from_zero
    (dt1 dt2 : Q) (g : bool) (r : Z) (p : Procedure) (s : State Host) :
  isInitialized s = true -> aircraftIsReady s = true ->
  loadingIsActive s = true ->
  (0 < r)%Z -> getProcedure r = Some p ->
  loadingIsActive (after dt1 (Scenario.sim_inputs 0 g s)) = false /\
  executed (effects dt1 (Scenario.sim_inputs 0 g s)) = [] /\
  after dt2 (Scenario.sim_inputs r true (after dt1 (Scenario.sim_inputs 0 g s)))
    = mkState true true (aircraftPresetVerbose s) r true (Finite 0) 0%Z
        r p true 0 0 0%N (host s) /\
  executed
    (effects dt2
       (Scenario.sim_inputs r true (after dt1 (Scenario.sim_inputs 0 g s))))
    = [].
Proof.
  intros Hi Hr Ha Hq Hp.
  unfold AircraftPresets.after, AircraftPresets.effects.
  rewrite (update_cancel dt1 (Scenario.sim_inputs 0 g s));
    try assumption; cbn [fst snd]; [| cbn; lia].
  rewrite (update_start dt2 _ p); try assumption; try reflexivity.
  unfold started, Scenario.sim_inputs. cbn. rewrite Hi, Hr. auto.
Qed.

(** X16: [initialize] resets the request, so the first call after it (with
    the aircraft ready and nothing requested in between) never runs a step:
    it returns [true], evaluates no script, leaves the request at 0 and the
    loader without an active run, even when a run was active before. *)
Theorem initialize_then_update_is_idle (dt : Q) (s : State Host) :
  aircraftIsReady s = true ->
  fst (fst (@initialize Host s)) = true /\
  returned dt (snd (fst (@initialize Host s))) = true /\
  executed (effects dt (snd (fst (@initialize Host s)))) = [] /\
  loadAircraftPresetRequest (after dt (snd (fst (@initialize Host s)))) = 0%Z /\
  loadingIsActive (after dt (snd (fst (@initialize Host s)))) = false /\
  currentStep (after dt (snd (fst (@initialize Host s)))) = currentStep s.
Proof.
  intros Hr. unfold_tick. cbn. rewrite Hr.
  destruct (loadingIsActive s) eqn:Ha; cbn; auto 10.
Qed.

(** X17: after [shutdown] every call is refused: it returns [false], logs
    the error and neither changes the state nor evaluates a script, whatever
    is requested and even with a run active; a later [initialize] makes the
    calls return [true] again. *)
Theorem shutdown_stops_updates (dt : Q) (s : State Host) :
  fst (fst (@shutdown Host s)) = true /\
  update dt (snd (fst (@shutdown Host s)))
    = (false, snd (fst (@shutdown Host s)), [Log ERROR]) /\
  returned dt (snd (fst (@initialize Host (snd (fst (@shutdown Host s))))))
    = true.
Proof.
  unfold_tick. cbn. split; [reflexivity |]. split; [reflexivity |].
  split_tick; reflexivity.
Qed.

End Properties.

(** *** The three-step schedule *)

Section ThreeSteps.

Variable Host : Type.
Variable calculator : string -> Host -> Host * Q.
Variable almostEqual : Q -> Q -> bool.
Variable h : Host.

(** C7 (amended): preset 1 (three action steps, delays 100, 200 and 0 ms, no
    expected-state checks) is requested on the ground, one call starts the
    run and ten calls of 50 ms follow. Step 0 fires at once on tick 1
    ([currentStep] becomes 1), the loader waits on ticks 2 and 3 (100 and
    150 ms are not beyond the delay of 50 + 100 ms), step 1 fires on tick 4
    at 200 ms, the loader waits on ticks 5 to 8, step 2 fires on tick 9 at
    450 ms, which is when [currentStep] reaches 3, after more than
    100 + 200 ms; tick 10 takes the completion path. *)
Theorem C7_three_steps_schedule :
  map (@currentStep Host)
      (history calculator almostEqual Scenario.repository
         (repeat Scenario.dt50 11) (Scenario.requested 1 h))
    = [0; 1; 1; 1; 2; 2; 2; 2; 2; 3; 3]%N /\
  scripts calculator almostEqual Scenario.repository
      (repeat Scenario.dt50 11) (Scenario.requested 1 h)
    = [ []; ["1 (>L:FIRST)"]; []; []; ["1 (>L:SECOND)"]; []; []; []; [];
        ["1 (>L:THIRD)"]; [] ]%string /\
  map (fun s => Qred (currentLoadingTime s))
      (history calculator almostEqual Scenario.repository
         (repeat Scenario.dt50 11) (Scenario.requested 1 h))
    = [0; 50; 100; 150; 200; 250; 300; 350; 400; 450; 450] /\
  map (@loadingIsActive Host)
      (history calculator almostEqual Scenario.repository
         (repeat Scenario.dt50 11) (Scenario.requested 1 h))
    = [true; true; true; true; true; true; true; true; true; true; false].
Proof.
  repeat split; vm_compute; reflexivity.
Qed.

End ThreeSteps.

(** *** Runs on the mock host *)

(** C1, as stated, fails: on preset 3 the check of the step in focus
    evaluates to 0 and the same call goes on to evaluate the action
    script. *)
Lemma C1_counterexample :
  executed (Scenario.mock_effects Scenario.dt50 (Scenario.checked_run 0))
    = ["(L:BAT) 1 =="; "1 (>L:BAT)"]%string /\
  ~ (List.length
       (executed (Scenario.mock_effects Scenario.dt50 (Scenario.checked_run 0)))
     <= 1)%nat.
Proof.
  split; [vm_compute; reflexivity |].
  intros H. vm_compute in H. lia.
Qed.

(** C2, as stated, fails: two steps into preset 1 the progress outputs are
    1/3 and 12; the call that cancels the run (request back at 0) and the
    call that aborts it (aircraft airborne) both leave them at these
    values. *)
Lemma C2_counterexample :
  (external_cancellation (Scenario.sim_inputs 0 true Scenario.mid_run) = true /\
   progressAircraftPreset
     (Scenario.mock_after Scenario.dt50
        (Scenario.sim_inputs 0 true Scenario.mid_run)) = Finite (1 # 3) /\
   is_zero
     (progressAircraftPreset
        (Scenario.mock_after Scenario.dt50
           (Scenario.sim_inputs 0 true Scenario.mid_run))) = false /\
   progressAircraftPresetId
     (Scenario.mock_after Scenario.dt50
        (Scenario.sim_inputs 0 true Scenario.mid_run)) = 12%Z) /\
  (precondition_abort (Scenario.sim_inputs 1 false Scenario.mid_run) = true /\
   progressAircraftPreset
     (Scenario.mock_after Scenario.dt50
        (Scenario.sim_inputs 1 false Scenario.mid_run)) = Finite (1 # 3) /\
   is_zero
     (progressAircraftPreset
        (Scenario.mock_after Scenario.dt50
           (Scenario.sim_inputs 1 false Scenario.mid_run))) = false /\
   progressAircraftPresetId
     (Scenario.mock_after Scenario.dt50
        (Scenario.sim_inputs 1 false Scenario.mid_run)) = 12%Z).
Proof.
  repeat split; vm_compute; reflexivity.
Qed.

(** C7, as stated, fails: the claim has [currentStep] at 0 after the start
    tick and after ticks 1 and 2, and at 1 after tick 3; the loader has it
    at 1 already after tick 1. *)
Lemma C7_counterexample :
  map (@currentStep Scenario.Mock)
      (history Scenario.mock_calculator Scenario.almostEqual Scenario.repository
         (repeat Scenario.dt50 4) (Scenario.requested 1 []))
    <> [0; 0; 0; 1]%N.
Proof.
  vm_compute. discriminate.
Qed.

(** *** The theorems at concrete inputs *)

Lemma C2_abnormal_end_keeps_progress_witness :
  abnormal_termination Scenario.repository
    (Scenario.sim_inputs 0 true Scenario.mid_run) = true /\
  (loadingIsActive
     (Scenario.mock_after Scenario.dt50
        (Scenario.sim_inputs 0 true Scenario.mid_run)) = false /\
   progress_writes
     (Scenario.mock_effects Scenario.dt50
        (Scenario.sim_inputs 0 true Scenario.mid_run)) = [] /\
   progress_id_writes
     (Scenario.mock_effects Scenario.dt50
        (Scenario.sim_inputs 0 true Scenario.mid_run)) = [] /\
   progressAircraftPreset
     (Scenario.mock_after Scenario.dt50
        (Scenario.sim_inputs 0 true Scenario.mid_run))
     = progressAircraftPreset (Scenario.sim_inputs 0 true Scenario.mid_run) /\
   progressAircraftPresetId
     (Scenario.mock_after Scenario.dt50
        (Scenario.sim_inputs 0 true Scenario.mid_run))
     = progressAircraftPresetId (Scenario.sim_inputs 0 true Scenario.mid_run)).
Proof.
  split; [vm_compute; reflexivity |].
  apply (C2_abnormal_end_keeps_progress Scenario.Mock Scenario.mock_calculator
           Scenario.almostEqual Scenario.repository Scenario.dt50
           (Scenario.sim_inputs 0 true Scenario.mid_run)).
  vm_compute; reflexivity.
Defined.

Lemma C3_skip_ahead_witness :
  currentStep (Scenario.mock_after Scenario.dt50 (Scenario.checked_run 1))
    = (currentStep (Scenario.checked_run 1) + 1)%N /\
  currentDelay (Scenario.mock_after Scenario.dt50 (Scenario.checked_run 1)) = 0 /\
  executed (Scenario.mock_effects Scenario.dt50 (Scenario.checked_run 1))
    = [expectedStateCheckCode Scenario.checked_step].
Proof.
  apply (C3_skip_ahead Scenario.Mock Scenario.mock_calculator
           Scenario.almostEqual Scenario.repository Scenario.dt50
           (Scenario.checked_run 1) Scenario.checked_step);
    try (vm_compute; reflexivity).
  vm_compute. discriminate.
Defined.

Lemma C4_airborne_request_rejected_witness :
  loadAircraftPresetRequest
    (Scenario.mock_after Scenario.dt50
       (Scenario.sim_inputs 1 false Scenario.mid_run)) = 0%Z /\
  loadingIsActive
    (Scenario.mock_after Scenario.dt50
       (Scenario.sim_inputs 1 false Scenario.mid_run)) = false /\
  currentStep
    (Scenario.mock_after Scenario.dt50
       (Scenario.sim_inputs 1 false Scenario.mid_run))
    = currentStep (Scenario.sim_inputs 1 false Scenario.mid_run) /\
  executed
    (Scenario.mock_effects Scenario.dt50
       (Scenario.sim_inputs 1 false Scenario.mid_run)) = [].
Proof.
  destruct (C4_airborne_request_rejected Scenario.Mock Scenario.mock_calculator
              Scenario.almostEqual Scenario.repository Scenario.dt50
              (Scenario.sim_inputs 1 false Scenario.mid_run))
    as [Hgate [_ [Hstep [Hexec _]]]];
    [vm_compute; reflexivity | vm_compute; reflexivity |].
  destruct Hgate as [Hreq Hact];
    [vm_compute; reflexivity | vm_compute; reflexivity |].
  split; [exact Hreq | split; [exact Hact | split; [exact Hstep | exact Hexec]]].
Defined.

Lemma C6_empty_procedure_completes_witness :
  loadingIsActive
    (Scenario.mock_after Scenario.dt50 (Scenario.requested 2 [])) = true /\
  progress_writes
    (Scenario.mock_effects Scenario.dt50
       (Scenario.mock_after Scenario.dt50 (Scenario.requested 2 [])))
    = [Finite 0] /\
  progress_id_writes
    (Scenario.mock_effects Scenario.dt50
       (Scenario.mock_after Scenario.dt50 (Scenario.requested 2 [])))
    = [0%Z] /\
  progressAircraftPreset
    (Scenario.mock_after Scenario.dt50
       (Scenario.mock_after Scenario.dt50 (Scenario.requested 2 [])))
    = Finite 0 /\
  progressAircraftPresetId
    (Scenario.mock_after Scenario.dt50
       (Scenario.mock_after Scenario.dt50 (Scenario.requested 2 [])))
    = 0%Z /\
  loadAircraftPresetRequest
    (Scenario.mock_after Scenario.dt50
       (Scenario.mock_after Scenario.dt50 (Scenario.requested 2 [])))
    = 0%Z /\
  loadingIsActive
    (Scenario.mock_after Scenario.dt50
       (Scenario.mock_after Scenario.dt50 (Scenario.requested 2 [])))
    = false /\
  executed (Scenario.mock_effects Scenario.dt50 (Scenario.requested 2 [])) = [] /\
  executed
    (Scenario.mock_effects Scenario.dt50
       (Scenario.mock_after Scenario.dt50 (Scenario.requested 2 [])))
    = [].
Proof.
  apply (C6_empty_procedure_completes Scenario.Mock Scenario.mock_calculator
           Scenario.almostEqual Scenario.repository Scenario.dt50 Scenario.dt50
           (Scenario.requested 2 []));
    vm_compute; reflexivity.
Defined.

Lemma C8_idle_tick_is_noop_witness :
  Scenario.mock_after Scenario.dt50 (Scenario.parked []) = Scenario.parked [] /\
  progress_writes (Scenario.mock_effects Scenario.dt50 (Scenario.parked [])) = [] /\
  progress_id_writes (Scenario.mock_effects Scenario.dt50 (Scenario.parked [])) = [] /\
  executed (Scenario.mock_effects Scenario.dt50 (Scenario.parked [])) = [] /\
  Scenario.mock_ticks (repeat Scenario.dt50 3) (Scenario.parked [])
    = Scenario.parked [].
Proof.
  apply (C8_idle_tick_is_noop Scenario.Mock Scenario.mock_calculator
           Scenario.almostEqual Scenario.repository
           (repeat Scenario.dt50 3) Scenario.dt50 (Scenario.parked []));
    reflexivity.
Defined.

Lemma C9_negative_request_as_zero_witness :
  (loadAircraftPresetRequest (Scenario.sim_inputs (-1) true Scenario.mid_run) < 0)%Z /\
  loadingIsActive
    (Scenario.mock_after Scenario.dt50
       (Scenario.sim_inputs (-1) true Scenario.mid_run)) = false /\
  currentStep
    (Scenario.mock_after Scenario.dt50
       (Scenario.sim_inputs (-1) true Scenario.mid_run))
    = currentStep (Scenario.sim_inputs (-1) true Scenario.mid_run) /\
  executed
    (Scenario.mock_effects Scenario.dt50
       (Scenario.sim_inputs (-1) true Scenario.mid_run)) = [].
Proof.
  assert (Hneg :
    (loadAircraftPresetRequest (Scenario.sim_inputs (-1) true Scenario.mid_run) < 0)%Z)
    by (vm_compute; reflexivity).
  split; [exact Hneg |].
  destruct (C9_negative_request_as_zero Scenario.Mock Scenario.mock_calculator
              Scenario.almostEqual Scenario.repository Scenario.dt50
              (Scenario.sim_inputs (-1) true Scenario.mid_run) Hneg)
    as [_ [Hcancel [Hstep [Hexec _]]]].
  split; [apply Hcancel; vm_compute; reflexivity |].
  split; [exact Hstep | exact Hexec].
Defined.

Lemma C10_progress_fraction_in_range_witness :
  (Finite (1 # 3) = Finite 0 \/
   ((currentStep Scenario.second_due
       < size (currentProcedure Scenario.second_due))%N /\
    Finite (1 # 3)
      = double_div (currentStep Scenario.second_due)
          (size (currentProcedure Scenario.second_due)))) /\
  exists q, Finite (1 # 3) = Finite q /\ 0 <= q /\ q < 1.
Proof.
  apply (C10_progress_fraction_in_range Scenario.Mock Scenario.mock_calculator
           Scenario.almostEqual Scenario.repository Scenario.dt50
           Scenario.second_due (Finite (1 # 3))).
  vm_compute. left. reflexivity.
Defined.

(** *** The further properties at concrete inputs *)

Lemma update_gated_is_noop_witness :
  Scenario.mock_after Scenario.dt50 Scenario.not_ready = Scenario.not_ready /\
  executed (Scenario.mock_effects Scenario.dt50 Scenario.not_ready) = [] /\
  progress_writes (Scenario.mock_effects Scenario.dt50 Scenario.not_ready) = [] /\
  progress_id_writes (Scenario.mock_effects Scenario.dt50 Scenario.not_ready) = [].
Proof.
  apply (update_gated_is_noop Scenario.Mock Scenario.mock_calculator
           Scenario.almostEqual Scenario.repository Scenario.dt50
           Scenario.not_ready).
  reflexivity.
Defined.

Lemma scripts_need_running_ground_run_witness :
  isInitialized Scenario.second_due = true /\
  aircraftIsReady Scenario.second_due = true /\
  (0 < loadAircraftPresetRequest Scenario.second_due)%Z /\
  simOnGround Scenario.second_due = true /\
  loadingIsActive Scenario.second_due = true /\
  (currentStep Scenario.second_due
     < size (currentProcedure Scenario.second_due))%N /\
  currentDelay Scenario.second_due
    < currentLoadingTime Scenario.second_due + Scenario.dt50 * 1000.
Proof.
  apply (scripts_need_running_ground_run Scenario.Mock Scenario.mock_calculator
           Scenario.almostEqual Scenario.repository Scenario.dt50
           Scenario.second_due).
  vm_compute. discriminate.
Defined.

Lemma step_counter_stays_in_procedure_witness :
  (currentStep
     (Scenario.mock_ticks (repeat Scenario.dt50 11) (Scenario.requested 1 []))
   <= size
        (currentProcedure
           (Scenario.mock_ticks (repeat Scenario.dt50 11)
              (Scenario.requested 1 []))))%N.
Proof.
  apply (step_counter_stays_in_procedure Scenario.Mock Scenario.mock_calculator
           Scenario.almostEqual Scenario.repository
           (repeat Scenario.dt50 11) (Scenario.requested 1 [])).
  vm_compute. discriminate.
Defined.

Lemma run_stays_bound_witness :
  run_bound Scenario.repository
    (Scenario.mock_ticks (repeat Scenario.dt50 3) Scenario.mid_run).
Proof.
  apply (run_stays_bound Scenario.Mock Scenario.mock_calculator
           Scenario.almostEqual Scenario.repository
           (repeat Scenario.dt50 3) Scenario.mid_run).
  intros _. split; vm_compute; reflexivity.
Defined.

Lemma request_agrees_with_run_state_witness :
  (loadingIsActive
     (Scenario.mock_after Scenario.dt50 (Scenario.requested 1 [])) = true ->
   loadAircraftPresetRequest
     (Scenario.mock_after Scenario.dt50 (Scenario.requested 1 []))
   = currentProcedureID
       (Scenario.mock_after Scenario.dt50 (Scenario.requested 1 []))) /\
  (loadingIsActive
     (Scenario.mock_after Scenario.dt50 (Scenario.requested 1 [])) = false ->
   (loadAircraftPresetRequest
      (Scenario.mock_after Scenario.dt50 (Scenario.requested 1 [])) <= 0)%Z).
Proof.
  apply (request_agrees_with_run_state Scenario.Mock Scenario.mock_calculator
           Scenario.almostEqual Scenario.repository Scenario.dt50
           (Scenario.requested 1 []));
    reflexivity.
Defined.

Lemma positive_request_ignored_mid_run_witness :
  Scenario.mock_update Scenario.dt50
    (set_loadAircraftPresetRequest 1 Scenario.mid_run)
  = Scenario.mock_update Scenario.dt50
      (set_loadAircraftPresetRequest 3 Scenario.mid_run).
Proof.
  apply (positive_request_ignored_mid_run Scenario.Mock Scenario.mock_calculator
           Scenario.almostEqual Scenario.repository Scenario.dt50 1 3
           Scenario.mid_run);
    vm_compute; reflexivity.
Defined.

Lemma conditional_step_polls_witness :
  executed (Scenario.mock_effects Scenario.dt50 (Scenario.polling_run 0))
    = [actionCode Scenario.polling_step].
Proof.
  refine (proj1
    (conditional_step_polls Scenario.Mock Scenario.mock_calculator
       Scenario.almostEqual Scenario.repository Scenario.dt50
       (Scenario.polling_run 0) Scenario.polling_step _ _ _ _ _ _ _ _ _));
    try (vm_compute; reflexivity).
  vm_compute. discriminate.
Defined.

Lemma action_step_executes_witness :
  executed (Scenario.mock_effects Scenario.dt50 (Scenario.checked_run 0))
    = (if empty (expectedStateCheckCode Scenario.checked_step) then []
       else [expectedStateCheckCode Scenario.checked_step])
      ++ [actionCode Scenario.checked_step].
Proof.
  refine (proj1
    (action_step_executes Scenario.Mock Scenario.mock_calculator
       Scenario.almostEqual Scenario.repository Scenario.dt50
       (Scenario.checked_run 0) Scenario.checked_step _ _ _ _ _ _ _ _ _ _));
    try (vm_compute; reflexivity).
  vm_compute. discriminate.
Defined.


Lemma inactive_loader_is_dormant_witness :
  Scenario.mock_ticks (repeat Scenario.dt50 3)
    (Scenario.mock_after Scenario.dt50
       (Scenario.sim_inputs 0 true Scenario.mid_run))
  = Scenario.mock_after Scenario.dt50
      (Scenario.sim_inputs 0 true Scenario.mid_run).
Proof.
  apply (inactive_loader_is_dormant Scenario.Mock Scenario.mock_calculator
           Scenario.almostEqual Scenario.repository
           (repeat Scenario.dt50 3) Scenario.dt50
           (Scenario.sim_inputs 0 true Scenario.mid_run));
    vm_compute; reflexivity.
Defined.


Lemma cancel_then_restart_from_zero_witness :
  loadingIsActive
    (Scenario.mock_after Scenario.dt50
       (Scenario.sim_inputs 0 true Scenario.mid_run)) = false.
Proof.
  refine (proj1
    (cancel_then_restart_from_zero Scenario.Mock Scenario.mock_calculator
       Scenario.almostEqual Scenario.repository Scenario.dt50 Scenario.dt50
       true 3 Scenario.checked Scenario.mid_run _ _ _ _ _));
    vm_compute; reflexivity.
Defined.

Lemma initialize_then_update_is_idle_witness :
  fst (fst (@initialize Scenario.Mock Scenario.mid_run)) = true /\
  Scenario.mock_update Scenario.dt50
    (snd (fst (@initialize Scenario.Mock Scenario.mid_run)))
  = (true,
     set_loadingIsActive false
       (snd (fst (@initialize Scenario.Mock Scenario.mid_run))),
     [Log INFO]).
Proof.
  destruct (initialize_then_update_is_idle Scenario.Mock Scenario.mock_calculator
              Scenario.almostEqual Scenario.repository Scenario.dt50
              Scenario.mid_run) as [Hret _];
    [vm_compute; reflexivity |].
  split; [exact Hret | vm_compute; reflexivity].
Defined.
